(** * Pooling factory of txtai: method and maxlength resolution

    Shallow embedding of [src/python/txtai/models/pooling/factory.py]
    ([PoolingFactory.create], [.method], [.maxlength], [.load]) and the
    properties of its resolution order.

    Python values are an inductive type, a [dict] with string keys is a
    [gmap string pyval], and the effects of the module (file system
    tests, Hugging Face Hub downloads, raised exceptions) are threaded
    through a writer/error monad whose log is the chronological list of
    calls made to the outside world. *)

From Stdlib Require Import Floats.SpecFloat.
From stdpp Require Import gmap strings list.

Set Warnings "-register-all".

(** ** Python values *)

(** The values that can occur in a pooling configuration or in a parsed
    JSON file.  [PObject] is an opaque instance (a device, a tokenizer, a
    model object) with the default [object] behaviour: always truthy,
    equal to nothing but itself, without [__getitem__] or [get]. *)
Inductive pyval : Type :=
  | PNone
  | PBool (b : bool)
  | PInt (z : Z)
  | PFloat (f : spec_float)
  | PStr (s : string)
  | PBytes (b : list Byte.byte)
  | PList (l : list pyval)
  | PDict (d : gmap string pyval)
  | PObject (id : nat).

(** Exceptions.  [EntryNotFoundError] stands for the class of
    [huggingface_hub.utils] and its subclasses, which is what an
    [except EntryNotFoundError] clause catches; [OtherError] is any
    exception class the module never names (validation, HTTP, OS and
    JSON decoding errors). *)
Inductive exn : Type :=
  | EntryNotFoundError
  | KeyError (k : string)
  | TypeError
  | AttributeError
  | OtherError (name : string).

Inductive result (A : Type) : Type :=
  | Ok (a : A)
  | Raise (e : exn).
Arguments Ok {A} a.
Arguments Raise {A} e.

Definition returns {A} (r : result A) : bool :=
  match r with Ok _ => true | Raise _ => false end.

(** [bool(v)]. *)
Definition truthy (v : pyval) : bool :=
  match v with
  | PNone => false
  | PBool b => b
  | PInt z => negb (Z.eqb z 0)
  | PFloat f => match f with S754_zero _ => false | _ => true end
  | PStr s => negb (String.eqb s "")
  | PBytes b => match b with [] => false | _ => true end
  | PList l => match l with [] => false | _ => true end
  | PDict d => negb (Nat.eqb (size d) 0)
  | PObject _ => true
  end.

(** [v == s] for a string literal [s]: only a [str] compares equal to a
    [str]. *)
Definition py_eq_str (v : pyval) (s : string) : bool :=
  match v with
  | PStr t => String.eqb t s
  | _ => false
  end.

(** [isinstance(v, bool) and v]. *)
Definition is_bool_true (v : pyval) : bool :=
  match v with
  | PBool b => b
  | _ => false
  end.

(** [d.get(k)] on a dict: the value, or [None] when the key is absent. *)
Definition dict_get (d : gmap string pyval) (k : string) : pyval :=
  default PNone (d !! k).

(** [v[k]] with a string key [k]. *)
Definition getitem (v : pyval) (k : string) : result pyval :=
  match v with
  | PDict d =>
      match d !! k with
      | Some x => Ok x
      | None => Raise (KeyError k)
      end
  | _ => Raise TypeError
  end.

(** [v.get(k)]: only a dict has the attribute. *)
Definition attr_get (v : pyval) (k : string) : result pyval :=
  match v with
  | PDict d => Ok (dict_get d k)
  | _ => Raise AttributeError
  end.

(** ** The outside world and the effect monad *)

(** What the module asks of its environment: [os.path.isfile],
    [os.path.exists], [hf_hub_download(repo_id, filename)], which gives
    the local path of the downloaded file or raises, and
    [open] followed by [json.load] on such a path. *)
Record World : Type := {
  os_path_isfile : string → bool;
  os_path_exists : string → bool;
  hf_hub_download : pyval → string → result string;
  json_load : string → result pyval;
}.

Inductive event : Type :=
  | IsFile (p : string)
  | Exists (p : string)
  | Download (repo : pyval) (name : string)
  | Open (p : string).

(** A computation yields the calls it made, oldest first, and either a
    value or the exception that ended it. *)
Definition M (A : Type) : Type := (list event * result A)%type.

Definition trace {A} (m : M A) : list event := m.1.
Definition outcome {A} (m : M A) : result A := m.2.

#[global] Instance M_ret : MRet M := λ A a, ([], Ok a).

#[global] Instance M_bind : MBind M := λ A B f m,
  match m.2 with
  | Ok a => (m.1 ++ (f a).1, (f a).2)
  | Raise e => (m.1, Raise e)
  end.

(** [try: body  except EntryNotFoundError: handler]. *)
Definition try_except_not_found {A} (body handler : M A) : M A :=
  match body.2 with
  | Raise EntryNotFoundError => (body.1 ++ handler.1, handler.2)
  | _ => body
  end.

Definition lift {A} (r : result A) : M A := ([], r).

Definition isfile (w : World) (p : string) : M bool :=
  ([IsFile p], Ok (os_path_isfile w p)).

Definition path_exists (w : World) (p : string) : M bool :=
  ([Exists p], Ok (os_path_exists w p)).

Definition download (w : World) (repo : pyval) (name : string) : M string :=
  ([Download repo name], hf_hub_download w repo name).

Definition open_json (w : World) (p : string) : M pyval :=
  ([Open p], json_load w p).

(** ** Pooling strategies *)

(** Modelled from the spec: the classes [Pooling], [ClsPooling] and
    [MeanPooling] of [.base], [.cls] and [.mean] are not part of the
    sources at hand.  Each is constructed from the same tuple
    [(path, device, tokenizer, maxlength, modelargs)] of opaque
    pass-through parameters, so an instance is its variant and that
    tuple. *)
Record PoolingArgs : Type := {
  arg_path : pyval;
  arg_device : pyval;
  arg_tokenizer : pyval;
  arg_maxlength : pyval;
  arg_modelargs : pyval;
}.

Inductive strategy : Type :=
  | Pooling (a : PoolingArgs)
  | ClsPooling (a : PoolingArgs)
  | MeanPooling (a : PoolingArgs).

Definition strategy_args (s : strategy) : PoolingArgs :=
  match s with
  | Pooling a | ClsPooling a | MeanPooling a => a
  end.

Inductive variant : Type := Raw | Cls | Mean.

Definition strategy_variant (s : strategy) : variant :=
  match s with
  | Pooling _ => Raw
  | ClsPooling _ => Cls
  | MeanPooling _ => Mean
  end.

(** ** The factory *)

Module PoolingFactory.

Definition pooling_config : string := "1_Pooling/config.json".
Definition sentence_bert_config : string := "sentence_bert_config.json".

(** [load(path, name)]: download the file, open it, parse the JSON. *)
Definition load (w : World) (path : pyval) (name : string) : M pyval :=
  local ← download w path name;
  open_json w local.

(** [method(path)]: the local [method] starts as ["meanpooling"] and is
    overwritten inside the [try] block; [and] evaluates its right
    operand only when the left one is truthy. *)
Definition method (w : World) (path : pyval) : M pyval :=
  let method := PStr "meanpooling" in
  try_except_not_found
    (config ← load w path pooling_config;
     cls ← lift (getitem config "pooling_mode_cls_token");
     if truthy cls then
       mean ← lift (getitem config "pooling_mode_mean_tokens");
       if negb (truthy mean) then mret (PStr "clspooling") else mret method
     else mret method)
    (mret method).

(** [maxlength(path)]. *)
Definition maxlength (w : World) (path : pyval) : M pyval :=
  let maxlength := PNone in
  try_except_not_found
    (config ← load w path sentence_bert_config;
     lift (attr_get config "max_seq_length"))
    (mret maxlength).

(** Line 39: [PoolingFactory.maxlength(path) if isinstance(maxlength,
    bool) and maxlength else maxlength]. *)
Definition derive_maxlength (w : World) (path cfg_maxlength : pyval) : M pyval :=
  if is_bool_true cfg_maxlength then maxlength w path else mret cfg_maxlength.

(** Line 42: [isinstance(path, bytes) or (isinstance(path, str) and
    os.path.isfile(path)) or method == "pooling"]. *)
Definition raw_test (w : World) (path cfg_method : pyval) : M bool :=
  match path with
  | PBytes _ => mret true
  | PStr p =>
      f ← isfile w p;
      if f : bool then mret true else mret (py_eq_str cfg_method "pooling")
  | _ => mret (py_eq_str cfg_method "pooling")
  end.

(** [method in ("clspooling", "meanpooling")]. *)
Definition recognized (cfg_method : pyval) : bool :=
  py_eq_str cfg_method "clspooling" || py_eq_str cfg_method "meanpooling".

(** Line 46: [(not method or method not in (...)) and
    (isinstance(path, str) and not os.path.exists(path))]. *)
Definition derive_test (w : World) (path cfg_method : pyval) : M bool :=
  if negb (truthy cfg_method) || negb (recognized cfg_method) then
    match path with
    | PStr p => e ← path_exists w p; mret (negb e)
    | _ => mret false
    end
  else mret false.

(** [create(config)]. *)
Definition create (w : World) (config : gmap string pyval) : M strategy :=
  let cfg_method := dict_get config "method" in
  let path := dict_get config "path" in
  let device := dict_get config "device" in
  let tokenizer := dict_get config "tokenizer" in
  let cfg_maxlength := dict_get config "maxlength" in
  let modelargs := dict_get config "modelargs" in
  maxlength ← derive_maxlength w path cfg_maxlength;
  let args := Build_PoolingArgs path device tokenizer maxlength modelargs in
  raw ← raw_test w path cfg_method;
  if raw : bool then mret (Pooling args)
  else
    derive ← derive_test w path cfg_method;
    method ← (if derive : bool then method w path else mret cfg_method);
    if py_eq_str method "clspooling" then mret (ClsPooling args)
    else mret (MeanPooling args).

End PoolingFactory.

Import PoolingFactory.

(** ** Observations on a log *)

Definition is_lookup (name : string) (e : event) : bool :=
  match e with
  | Download _ n => String.eqb n name
  | _ => false
  end.

Definition is_remote (e : event) : bool :=
  match e with
  | Download _ _ => true
  | _ => false
  end.

Definition is_fs_check (e : event) : bool :=
  match e with
  | IsFile _ | Exists _ => true
  | _ => false
  end.

(** Number of downloads of the file [name] requested in a log. *)
Definition lookups (name : string) (t : list event) : nat :=
  length (List.filter (is_lookup name) t).

Definition remote_lookups (t : list event) : list event :=
  List.filter is_remote t.

Definition fs_checks (t : list event) : list event :=
  List.filter is_fs_check t.

(** A resolved maxlength that is unset or a positive integer.  A Python
    [bool] is not counted as unset: [False] is a value of its own. *)
Definition unset_or_positive (v : pyval) : bool :=
  match v with
  | PNone => true
  | PInt z => Z.ltb 0 z
  | _ => false
  end.

(** ** Pure readings of the two tests of [create]

    The tests of lines 42 and 46 never raise; these are their values and
    the file system calls they make. *)
Definition raw_branch (w : World) (path cfg_method : pyval) : bool :=
  match path with
  | PBytes _ => true
  | PStr p => os_path_isfile w p || py_eq_str cfg_method "pooling"
  | _ => py_eq_str cfg_method "pooling"
  end.

Definition raw_checks (path : pyval) : list event :=
  match path with
  | PStr p => [IsFile p]
  | _ => []
  end.

Definition nonlocal_string (w : World) (path : pyval) : bool :=
  match path with
  | PStr p => negb (os_path_exists w p)
  | _ => false
  end.

Definition needs_method (w : World) (path cfg_method : pyval) : bool :=
  negb (recognized cfg_method) && nonlocal_string w path.

Definition derive_checks (path cfg_method : pyval) : list event :=
  if recognized cfg_method then []
  else match path with
       | PStr p => [Exists p]
       | _ => []
       end.

(** The strategy built at lines 50 to 54 from the final [method]. *)
Definition pick (method : pyval) (args : PoolingArgs) : strategy :=
  if py_eq_str method "clspooling" then ClsPooling args else MeanPooling args.

Definition config_args (config : gmap string pyval) (maxlength : pyval) : PoolingArgs :=
  {| arg_path := dict_get config "path";
     arg_device := dict_get config "device";
     arg_tokenizer := dict_get config "tokenizer";
     arg_maxlength := maxlength;
     arg_modelargs := dict_get config "modelargs" |}.

(** [isinstance(v, str)] and [isinstance(v, bytes)]. *)
Definition isinstance_str (v : pyval) : bool :=
  match v with PStr _ => true | _ => false end.

Definition isinstance_bytes (v : pyval) : bool :=
  match v with PBytes _ => true | _ => false end.

(** ** Conditions named by the specification *)

(** The configured method is unset, or is not one of the two recognized
    values. *)
Definition unpinned (m : pyval) : Prop :=
  m = PNone ∨ (m ≠ PStr "clspooling" ∧ m ≠ PStr "meanpooling").

(** The path is a string that does not exist on the local file system. *)
Definition remote_name (w : World) (path : pyval) : Prop :=
  ∃ p, path = PStr p ∧ os_path_exists w p = false.

(** A tokenizer configuration that is absent or a JSON object, and a
    pooling configuration that is absent or a JSON object with both
    flags. *)
Definition tokenizer_artifact_ok (w : World) (path : pyval) : bool :=
  match outcome (load w path sentence_bert_config) with
  | Ok (PDict _) => true
  | Raise EntryNotFoundError => true
  | _ => false
  end.

Definition pooling_artifact_ok (w : World) (path : pyval) : bool :=
  match outcome (load w path pooling_config) with
  | Ok (PDict d) =>
      match d !! "pooling_mode_cls_token", d !! "pooling_mode_mean_tokens" with
      | Some _, Some _ => true
      | _, _ => false
      end
  | Raise EntryNotFoundError => true
  | _ => false
  end.

(** The sources of [maxlength] that give an unset or positive value: a
    configured value that is unset or a positive integer, or [True] with
    a tokenizer configuration that is absent or whose [max_seq_length] is
    absent, null or a positive integer. *)
Definition maxlength_source_ok (w : World) (path cfg_maxlength : pyval) : bool :=
  if is_bool_true cfg_maxlength then
    match outcome (load w path sentence_bert_config) with
    | Ok (PDict d) => unset_or_positive (dict_get d "max_seq_length")
    | Raise EntryNotFoundError => true
    | _ => false
    end
  else unset_or_positive cfg_maxlength.

(** Two worlds that answer alike everything [create] can ask about
    [path]: the two file system tests and the two configuration
    lookups. *)
Definition same_answers (w1 w2 : World) (path : pyval) : Prop :=
  (∀ p, path = PStr p →
     os_path_isfile w1 p = os_path_isfile w2 p
     ∧ os_path_exists w1 p = os_path_exists w2 p)
  ∧ outcome (load w1 path sentence_bert_config)
    = outcome (load w2 path sentence_bert_config)
  ∧ outcome (load w1 path pooling_config) = outcome (load w2 path pooling_config).

(** Two worlds with the same remote artifacts for [path]. *)
Definition same_remote (w1 w2 : World) (path : pyval) : Prop :=
  outcome (load w1 path sentence_bert_config)
    = outcome (load w2 path sentence_bert_config)
  ∧ outcome (load w1 path pooling_config) = outcome (load w2 path pooling_config).

(** ** Sample worlds

    A world with the given local files and directories and a hub that
    holds the JSON documents of [hub], keyed by [repo/filename].  A
    missing document is reported as [EntryNotFoundError], a repository
    identifier that is not a string is rejected before any request. *)
Definition mem_string (p : string) (l : list string) : bool :=
  existsb (String.eqb p) l.

(** The keys that [create] unpacks from the configuration (line 35). *)
Definition config_keys : list string :=
  ["method"; "path"; "device"; "tokenizer"; "maxlength"; "modelargs"].

Definition sample_world (files dirs : list string) (hub : gmap string pyval) : World :=
  {| os_path_isfile := λ p, mem_string p files;
     os_path_exists := λ p, mem_string p files || mem_string p dirs;
     hf_hub_download := λ repo name,
       match repo with
       | PStr r =>
           match hub !! (r +:+ "/" +:+ name) with
           | Some _ => Ok (r +:+ "/" +:+ name)
           | None => Raise EntryNotFoundError
           end
       | _ => Raise (OtherError "HFValidationError")
       end;
     json_load := λ p,
       match hub !! p with
       | Some j => Ok j
       | None => Raise (OtherError "FileNotFoundError")
       end |}.

Definition flags (cls mean : bool) : pyval :=
  PDict {[ "pooling_mode_cls_token" := PBool cls;
           "pooling_mode_mean_tokens" := PBool mean ]}.

(** A hub with one model, [org/model], that publishes the given pooling
    and tokenizer configurations. *)
Definition hub_of (pooling tokenizer : option pyval) : gmap string pyval :=
  match pooling with
  | Some j => {[ "org/model/1_Pooling/config.json" := j ]}
  | None => ∅
  end ∪
  match tokenizer with
  | Some j => {[ "org/model/sentence_bert_config.json" := j ]}
  | None => ∅
  end.

Definition remote_world (pooling tokenizer : option pyval) : World :=
  sample_world [] [] (hub_of pooling tokenizer).

(** ** First checks on concrete inputs *)

Example method_cls_only :
  method (remote_world (Some (flags true false)) None) (PStr "org/model")
  = ([Download (PStr "org/model") "1_Pooling/config.json";
      Open "org/model/1_Pooling/config.json"], Ok (PStr "clspooling")).
Proof. vm_compute. reflexivity. Qed.

Example method_both_flags :
  outcome (method (remote_world (Some (flags true true)) None) (PStr "org/model"))
  = Ok (PStr "meanpooling").
Proof. vm_compute. reflexivity. Qed.

Example maxlength_128 :
  outcome (maxlength
    (remote_world None (Some (PDict {[ "max_seq_length" := PInt 128 ]})))
    (PStr "org/model"))
  = Ok (PInt 128).
Proof. vm_compute. reflexivity. Qed.

Example maxlength_absent :
  maxlength (remote_world None None) (PStr "org/model")
  = ([Download (PStr "org/model") "sentence_bert_config.json"], Ok PNone).
Proof. vm_compute. reflexivity. Qed.

Example create_remote_cls :
  create (remote_world (Some (flags true false)) None)
         {[ "path" := PStr "org/model" ]}
  = ([IsFile "org/model"; Exists "org/model";
      Download (PStr "org/model") "1_Pooling/config.json";
      Open "org/model/1_Pooling/config.json"],
     Ok (ClsPooling (Build_PoolingArgs (PStr "org/model") PNone PNone PNone PNone))).
Proof. vm_compute. reflexivity. Qed.

(** ** Laws of the effect monad *)

Section Monad_laws.
Context {A B : Type}.
Implicit Types (m : M A) (f : A → M B).

Lemma bind_ok m f a :
  outcome m = Ok a → m ≫= f = (trace m ++ trace (f a), outcome (f a)).
Proof. unfold outcome, trace, mbind, M_bind. by intros ->. Qed.

Lemma bind_raise m f e :
  outcome m = Raise e → m ≫= f = (trace m, Raise e).
Proof. unfold outcome, trace, mbind, M_bind. by intros ->. Qed.

Lemma bind_ret (a : A) f : mret a ≫= f = f a.
Proof. unfold mbind, M_bind, mret, M_ret. simpl. by destruct (f a). Qed.

Lemma try_absorbs (body : M A) (a : A) :
  outcome (try_except_not_found body (mret a)) ≠ Raise EntryNotFoundError.
Proof.
  unfold try_except_not_found, outcome.
  destruct body as [t [x|e]] eqn:E; simpl; [done|].
  destruct e; simpl; congruence.
Qed.

Lemma try_not_found (body : M A) (a : A) :
  outcome body = Raise EntryNotFoundError →
  try_except_not_found body (mret a) = (trace body, Ok a).
Proof.
  unfold try_except_not_found, outcome, trace. intros ->. simpl.
  by rewrite app_nil_r.
Qed.

Lemma try_ok (body handler : M A) (a : A) :
  outcome body = Ok a → try_except_not_found body handler = body.
Proof. unfold try_except_not_found, outcome. by intros ->. Qed.

Lemma try_other (body handler : M A) (e : exn) :
  outcome body = Raise e → e ≠ EntryNotFoundError →
  try_except_not_found body handler = body.
Proof.
  unfold try_except_not_found, outcome. intros -> He. by destruct e.
Qed.
End Monad_laws.

Lemma trace_mk {A} (t : list event) (r : result A) : trace (t, r) = t.
Proof. reflexivity. Qed.

Lemma outcome_mk {A} (t : list event) (r : result A) : outcome (t, r) = r.
Proof. reflexivity. Qed.

Lemma lookups_app name (t1 t2 : list event) :
  lookups name (t1 ++ t2) = lookups name t1 + lookups name t2.
Proof. unfold lookups. by rewrite List.filter_app, length_app. Qed.

(** ** The resolvers *)

(** The log of [load]: one download, then the file is opened if the
    download gave one. *)
Lemma load_trace w path name :
  trace (load w path name) =
  Download path name ::
    match hf_hub_download w path name with
    | Ok local => [Open local]
    | Raise _ => []
    end.
Proof.
  unfold load, download, open_json, trace, mbind, M_bind. simpl.
  by destruct (hf_hub_download w path name).
Qed.

Lemma load_outcome w path name :
  outcome (load w path name) =
  match hf_hub_download w path name with
  | Ok local => json_load w local
  | Raise e => Raise e
  end.
Proof.
  unfold load, download, open_json, outcome, mbind, M_bind. simpl.
  by destruct (hf_hub_download w path name).
Qed.

(** Neither resolver logs anything beyond its one [load]. *)
Lemma method_trace w path :
  trace (method w path) = trace (load w path pooling_config).
Proof.
  unfold method, try_except_not_found, mbind, M_bind, lift, mret, M_ret, trace.
  destruct (load w path pooling_config) as [t [c|e]]; simpl.
  - destruct c; simpl; rewrite ?app_nil_r; try done.
    destruct (d !! "pooling_mode_cls_token") as [cls|]; simpl;
      rewrite ?app_nil_r; [|done].
    destruct (truthy cls); simpl; rewrite ?app_nil_r; [|done].
    destruct (d !! "pooling_mode_mean_tokens") as [mean|]; simpl;
      rewrite ?app_nil_r; [|done].
    destruct (truthy mean); simpl; by rewrite ?app_nil_r.
  - destruct e; simpl; by rewrite ?app_nil_r.
Qed.

Lemma maxlength_trace w path :
  trace (maxlength w path) = trace (load w path sentence_bert_config).
Proof.
  unfold maxlength, try_except_not_found, mbind, M_bind, lift, mret, M_ret, trace.
  destruct (load w path sentence_bert_config) as [t [c|e]]; simpl.
  - destruct c; simpl; by rewrite ?app_nil_r.
  - destruct e; simpl; by rewrite ?app_nil_r.
Qed.

Lemma load_lookups w path name name' :
  lookups name' (trace (load w path name)) = if String.eqb name name' then 1 else 0.
Proof.
  rewrite load_trace. unfold lookups. simpl.
  destruct (String.eqb name name'); by destruct (hf_hub_download w path name).
Qed.

Lemma method_outcome w path :
  outcome (method w path) =
  match outcome (load w path pooling_config) with
  | Ok config =>
      match getitem config "pooling_mode_cls_token" with
      | Ok cls =>
          if truthy cls then
            match getitem config "pooling_mode_mean_tokens" with
            | Ok mean =>
                Ok (PStr (if truthy mean then "meanpooling" else "clspooling"))
            | Raise e => Raise e
            end
          else Ok (PStr "meanpooling")
      | Raise e => Raise e
      end
  | Raise EntryNotFoundError => Ok (PStr "meanpooling")
  | Raise e => Raise e
  end.
Proof.
  unfold method, try_except_not_found, mbind, M_bind, lift, mret, M_ret, outcome.
  destruct (load w path pooling_config) as [t [c|e]]; simpl.
  - destruct c; simpl; try done.
    destruct (d !! "pooling_mode_cls_token") as [cls|]; simpl; [|done].
    destruct (truthy cls); simpl; [|done].
    destruct (d !! "pooling_mode_mean_tokens") as [mean|]; simpl; [|done].
    by destruct (truthy mean).
  - by destruct e.
Qed.

Lemma maxlength_outcome w path :
  outcome (maxlength w path) =
  match outcome (load w path sentence_bert_config) with
  | Ok config => attr_get config "max_seq_length"
  | Raise EntryNotFoundError => Ok PNone
  | Raise e => Raise e
  end.
Proof.
  unfold maxlength, try_except_not_found, mbind, M_bind, lift, mret, M_ret, outcome.
  destruct (load w path sentence_bert_config) as [t [c|e]]; simpl.
  - by destruct c.
  - by destruct e.
Qed.

(** ** The steps of [create] *)

Lemma recognized_truthy m : recognized m = true → truthy m = true.
Proof.
  unfold recognized. destruct m; simpl; try done.
  intros [H|H]%orb_true_iff; apply String.eqb_eq in H; by subst.
Qed.

Lemma raw_test_run w path m :
  raw_test w path m = (raw_checks path, Ok (raw_branch w path m)).
Proof.
  unfold raw_test, raw_branch, raw_checks, isfile, mbind, M_bind, mret, M_ret.
  destruct path; simpl; try done.
  by destruct (os_path_isfile w s).
Qed.

Lemma derive_test_run w path m :
  derive_test w path m = (derive_checks path m, Ok (needs_method w path m)).
Proof.
  unfold derive_test, needs_method, derive_checks, nonlocal_string.
  destruct (recognized m) eqn:R.
  - by rewrite (recognized_truthy m R).
  - rewrite orb_true_r. simpl.
    unfold path_exists, mbind, M_bind, mret, M_ret.
    by destruct path.
Qed.

Lemma derive_maxlength_trace w path ml :
  trace (derive_maxlength w path ml) =
  if is_bool_true ml then trace (load w path sentence_bert_config) else [].
Proof.
  unfold derive_maxlength. destruct (is_bool_true ml); [|done].
  apply maxlength_trace.
Qed.

Lemma is_bool_true_iff v : is_bool_true v = true ↔ v = PBool true.
Proof.
  split; [|by intros ->].
  destruct v; simpl; try done. by intros ->.
Qed.

Lemma derive_maxlength_skip w path ml :
  ml ≠ PBool true → derive_maxlength w path ml = ([], Ok ml).
Proof.
  intros H. unfold derive_maxlength.
  destruct (is_bool_true ml) eqn:E; [|done].
  by apply is_bool_true_iff in E.
Qed.

(** [create], step by step: what it logs and what it gives, in terms of
    the outcomes of the two resolvers. *)
Lemma create_run w config :
  let path := dict_get config "path" in
  let m := dict_get config "method" in
  let step1 := derive_maxlength w path (dict_get config "maxlength") in
  create w config =
  match outcome step1 with
  | Raise e => (trace step1, Raise e)
  | Ok ml =>
      let args := config_args config ml in
      if raw_branch w path m then
        (trace step1 ++ raw_checks path, Ok (Pooling args))
      else if needs_method w path m then
        (trace step1 ++ raw_checks path ++ derive_checks path m
           ++ trace (method w path),
         match outcome (method w path) with
         | Ok r => Ok (pick r args)
         | Raise e => Raise e
         end)
      else
        (trace step1 ++ raw_checks path ++ derive_checks path m,
         Ok (pick m args))
  end.
Proof.
  intros path m step1. unfold create. fold path m step1.
  destruct (outcome step1) as [ml|e] eqn:E1.
  2: { by rewrite (bind_raise _ _ _ E1). }
  rewrite (bind_ok _ _ _ E1). simpl.
  rewrite raw_test_run.
  unfold mbind at 1, M_bind at 1. simpl.
  destruct (raw_branch w path m); simpl.
  { by rewrite app_nil_r. }
  rewrite derive_test_run.
  unfold mbind at 1, M_bind at 1. simpl.
  destruct (needs_method w path m); simpl.
  - unfold mbind, M_bind, outcome, trace.
    destruct (method w path) as [t [r|e]]; simpl; [|done].
    unfold pick, config_args.
    destruct (py_eq_str r "clspooling"); simpl; by rewrite app_nil_r.
  - unfold mbind, M_bind, mret, M_ret, pick, config_args. simpl.
    destruct (py_eq_str m "clspooling"); simpl; by rewrite !app_nil_r.
Qed.

(** ** What [create] asks of the hub and of the file system *)

Lemma remote_lookups_app (t1 t2 : list event) :
  remote_lookups (t1 ++ t2) = remote_lookups t1 ++ remote_lookups t2.
Proof. apply List.filter_app. Qed.

Lemma fs_checks_app (t1 t2 : list event) :
  fs_checks (t1 ++ t2) = fs_checks t1 ++ fs_checks t2.
Proof. apply List.filter_app. Qed.

Lemma load_remote w path name :
  remote_lookups (trace (load w path name)) = [Download path name].
Proof. rewrite load_trace. simpl. by destruct (hf_hub_download w path name). Qed.

Lemma load_fs w path name : fs_checks (trace (load w path name)) = [].
Proof. rewrite load_trace. simpl. by destruct (hf_hub_download w path name). Qed.

Lemma raw_checks_remote path : remote_lookups (raw_checks path) = [].
Proof. by destruct path. Qed.

Lemma derive_checks_remote path m : remote_lookups (derive_checks path m) = [].
Proof. unfold derive_checks. destruct (recognized m); [done|]. by destruct path. Qed.

Lemma raw_checks_fs path : fs_checks (raw_checks path) = raw_checks path.
Proof. by destruct path. Qed.

Lemma derive_checks_fs path m : fs_checks (derive_checks path m) = derive_checks path m.
Proof. unfold derive_checks. destruct (recognized m); [done|]. by destruct path. Qed.

Lemma lookups_remote name (t : list event) :
  lookups name t = lookups name (remote_lookups t).
Proof.
  unfold lookups, remote_lookups.
  induction t as [|e t IH]; [done|].
  destruct e; simpl; try done.
  destruct (String.eqb name0 name); simpl; by rewrite IH.
Qed.

(** The downloads of one call, in order: the tokenizer configuration
    when [maxlength] is [True], then the pooling configuration when step
    1 returned, the raw branch was not taken and the method is to be
    derived. *)
Lemma create_remote w config :
  let path := dict_get config "path" in
  let m := dict_get config "method" in
  let cfg_ml := dict_get config "maxlength" in
  remote_lookups (trace (create w config)) =
  (if is_bool_true cfg_ml then [Download path sentence_bert_config] else []) ++
  (if returns (outcome (derive_maxlength w path cfg_ml))
      && negb (raw_branch w path m) && needs_method w path m
   then [Download path pooling_config] else []).
Proof.
  intros path m cfg_ml.
  assert (remote_lookups (trace (derive_maxlength w path cfg_ml)) =
          if is_bool_true cfg_ml then [Download path sentence_bert_config] else [])
    as H1.
  { rewrite derive_maxlength_trace. destruct (is_bool_true cfg_ml); [|done].
    apply load_remote. }
  rewrite create_run. fold path m cfg_ml.
  destruct (outcome (derive_maxlength w path cfg_ml)) as [ml|e]; cbn zeta.
  2: { by rewrite trace_mk, H1, app_nil_r. }
  destruct (raw_branch w path m).
  { by rewrite trace_mk, remote_lookups_app, raw_checks_remote, H1. }
  destruct (needs_method w path m);
    rewrite trace_mk, !remote_lookups_app, raw_checks_remote,
      derive_checks_remote, H1; [|done].
  by rewrite method_trace, load_remote.
Qed.

Lemma create_lookups_tokenizer w config :
  lookups sentence_bert_config (trace (create w config)) =
  if is_bool_true (dict_get config "maxlength") then 1 else 0.
Proof.
  rewrite lookups_remote, create_remote.
  destruct (is_bool_true _); simpl;
    by destruct (_ && _ && _).
Qed.

Lemma create_lookups_pooling w config :
  let path := dict_get config "path" in
  let m := dict_get config "method" in
  lookups pooling_config (trace (create w config)) =
  if returns (outcome (derive_maxlength w path (dict_get config "maxlength")))
     && negb (raw_branch w path m) && needs_method w path m
  then 1 else 0.
Proof.
  intros path m. rewrite lookups_remote, create_remote. fold path m.
  destruct (is_bool_true _); simpl;
    by destruct (_ && _ && _).
Qed.

(** The file system tests of one call that gets past step 1. *)
Lemma create_fs w config ml :
  let path := dict_get config "path" in
  let m := dict_get config "method" in
  outcome (derive_maxlength w path (dict_get config "maxlength")) = Ok ml →
  fs_checks (trace (create w config)) =
  raw_checks path ++ (if raw_branch w path m then [] else derive_checks path m).
Proof.
  intros path m E1.
  assert (fs_checks (trace (derive_maxlength w path (dict_get config "maxlength")))
          = []) as H1.
  { rewrite derive_maxlength_trace. destruct (is_bool_true _); [|done].
    apply load_fs. }
  rewrite create_run. fold path m. rewrite E1. cbn zeta.
  destruct (raw_branch w path m).
  { by rewrite trace_mk, fs_checks_app, raw_checks_fs, H1, app_nil_r. }
  destruct (needs_method w path m);
    rewrite trace_mk, !fs_checks_app, raw_checks_fs, derive_checks_fs, H1;
    [|done].
  by rewrite method_trace, load_fs, app_nil_r.
Qed.

(** ** Resolution of the pooling method *)

(** C1: when the pooling configuration is loaded and carries both boolean
    flags, the method resolver returns ["clspooling"] if and only if the
    CLS flag is true and the mean flag is false, and ["meanpooling"] in
    every other combination, both flags true included. *)
Theorem method_cls_iff_cls_and_not_mean w path d (cls mean : bool) :
  outcome (load w path pooling_config) = Ok (PDict d) →
  d !! "pooling_mode_cls_token" = Some (PBool cls) →
  d !! "pooling_mode_mean_tokens" = Some (PBool mean) →
  outcome (method w path)
    = Ok (PStr (if cls && negb mean then "clspooling" else "meanpooling"))
  ∧ (outcome (method w path) = Ok (PStr "clspooling") ↔ cls = true ∧ mean = false)
  ∧ (cls = true → mean = true → outcome (method w path) = Ok (PStr "meanpooling")).
Proof.
  intros Hload Hcls Hmean.
  assert (outcome (method w path)
    = Ok (PStr (if cls && negb mean then "clspooling" else "meanpooling"))) as H.
  { rewrite method_outcome, Hload. simpl. rewrite Hcls. simpl.
    destruct cls; [|done]. rewrite Hmean. simpl. by destruct mean. }
  split; [done|]. rewrite H. split.
  - destruct cls, mean; cbn; split; try done; by intros [? ?].
  - by intros -> ->.
Qed.

Lemma method_cls_iff_cls_and_not_mean_witness :
  outcome (method (remote_world (Some (flags true true)) None) (PStr "org/model"))
    = Ok (PStr "meanpooling").
Proof.
  pose proof (method_cls_iff_cls_and_not_mean
    (remote_world (Some (flags true true)) None) (PStr "org/model")
    {[ "pooling_mode_cls_token" := PBool true;
       "pooling_mode_mean_tokens" := PBool true ]} true true) as H.
  destruct H as (H & _ & _); [vm_compute; reflexivity ..|].
  exact H.
Defined.

(** C5: when the named artifact does not exist, that is when [load]
    raises [EntryNotFoundError], the method resolver returns
    ["meanpooling"] and the maxlength resolver returns [None]; and
    [create] never ends with [EntryNotFoundError], whatever the world. *)
Theorem not_found_absorbed w path :
  (outcome (load w path pooling_config) = Raise EntryNotFoundError →
   outcome (method w path) = Ok (PStr "meanpooling"))
  ∧ (outcome (load w path sentence_bert_config) = Raise EntryNotFoundError →
     outcome (maxlength w path) = Ok PNone)
  ∧ (∀ config, outcome (create w config) ≠ Raise EntryNotFoundError).
Proof.
  split; [|split].
  - intros H. by rewrite method_outcome, H.
  - intros H. by rewrite maxlength_outcome, H.
  - intros config. rewrite create_run. cbn zeta.
    destruct (outcome (derive_maxlength _ _ _)) as [ml|e] eqn:E1.
    + destruct (raw_branch _ _ _); [done|].
      destruct (needs_method _ _ _); [|done].
      rewrite outcome_mk.
      destruct (outcome (method w (dict_get config "path"))) as [r|e] eqn:E2;
        [done|].
      intros [= ->]. by apply try_absorbs in E2.
    + rewrite outcome_mk. intros [= ->].
      unfold derive_maxlength in E1. destruct (is_bool_true _); [|done].
      by apply try_absorbs in E1.
Qed.

Lemma not_found_absorbed_witness :
  outcome (method (remote_world None None) (PStr "org/model"))
    = Ok (PStr "meanpooling")
  ∧ outcome (maxlength (remote_world None None) (PStr "org/model")) = Ok PNone
  ∧ outcome (create (remote_world None None)
               {[ "path" := PStr "org/model"; "maxlength" := PBool true ]})
    ≠ Raise EntryNotFoundError.
Proof.
  destruct (not_found_absorbed (remote_world None None) (PStr "org/model"))
    as (H1 & H2 & H3).
  split; [apply H1; vm_compute; reflexivity|].
  split; [apply H2; vm_compute; reflexivity|].
  apply H3.
Defined.

(** C4, the counterexample: a pooling configuration that is present but
    lacks the CLS flag does not resolve to ["meanpooling"]; the subscript
    raises [KeyError], which the [except] clause does not catch. *)
Lemma method_missing_flag_raises :
  outcome (method
    (remote_world (Some (PDict {[ "pooling_mode_mean_tokens" := PBool true ]})) None)
    (PStr "org/model"))
  = Raise (KeyError "pooling_mode_cls_token").
Proof. vm_compute. reflexivity. Qed.

(** C4, amended: a tokenizer configuration object without
    [max_seq_length] resolves to an unset maxlength, and a pooling
    configuration object whose CLS flag is present and falsy resolves to
    ["meanpooling"] whether or not the mean flag is present, which is
    then never read; neither call raises. *)
Theorem incomplete_artifact_degrades w path d :
  (outcome (load w path sentence_bert_config) = Ok (PDict d) →
   d !! "max_seq_length" = None →
   outcome (maxlength w path) = Ok PNone)
  ∧ (∀ c, outcome (load w path pooling_config) = Ok (PDict d) →
       d !! "pooling_mode_cls_token" = Some c →
       truthy c = false →
       outcome (method w path) = Ok (PStr "meanpooling")).
Proof.
  split.
  - intros H Hd. rewrite maxlength_outcome, H. simpl.
    unfold dict_get. by rewrite Hd.
  - intros c H Hc Tc. rewrite method_outcome, H. simpl.
    by rewrite Hc, Tc.
Qed.

Lemma incomplete_artifact_degrades_witness :
  outcome (maxlength (remote_world None (Some (PDict ∅))) (PStr "org/model"))
    = Ok PNone
  ∧ outcome (method
      (remote_world (Some (PDict {[ "pooling_mode_cls_token" := PBool false ]})) None)
      (PStr "org/model"))
    = Ok (PStr "meanpooling").
Proof.
  split.
  - apply (incomplete_artifact_degrades
             (remote_world None (Some (PDict ∅))) (PStr "org/model") ∅);
      vm_compute; reflexivity.
  - apply (proj2 (incomplete_artifact_degrades
             (remote_world (Some (PDict {[ "pooling_mode_cls_token" := PBool false ]})) None)
             (PStr "org/model") {[ "pooling_mode_cls_token" := PBool false ]})
             (PBool false));
      vm_compute; reflexivity.
Defined.

(** ** The decision order of [create] *)

Lemma py_eq_str_iff v s : py_eq_str v s = true ↔ v = PStr s.
Proof.
  destruct v; simpl; try by split.
  rewrite String.eqb_eq. split; [by intros ->|by intros [= ->]].
Qed.

(** The test of line 46 is the condition of the specification. *)
Lemma needs_method_iff w path m :
  needs_method w path m = true ↔ unpinned m ∧ remote_name w path.
Proof.
  unfold needs_method, unpinned, remote_name, nonlocal_string, recognized.
  rewrite andb_true_iff, negb_true_iff, orb_false_iff.
  rewrite <- !not_true_iff_false, !py_eq_str_iff.
  split.
  - intros [Hm Hp]. split; [by right|].
    destruct path; try done. exists s. split; [done|].
    by apply negb_true_iff.
  - intros [[->|Hm] (p & -> & Hp)]; (split; [done|by apply negb_true_iff]).
Qed.

(** C2: once step 1 has returned and the raw branch is not taken, the
    pooling configuration is looked up, and then once, exactly when the
    configured method is unset or not one of ["clspooling"] and
    ["meanpooling"] and the path is a string that does not exist
    locally; otherwise it is not looked up. *)
Theorem method_lookup_iff w config ml :
  outcome (derive_maxlength w (dict_get config "path") (dict_get config "maxlength"))
    = Ok ml →
  outcome (raw_test w (dict_get config "path") (dict_get config "method"))
    = Ok false →
  (unpinned (dict_get config "method") ∧ remote_name w (dict_get config "path") →
   lookups pooling_config (trace (create w config)) = 1)
  ∧ (¬ (unpinned (dict_get config "method") ∧ remote_name w (dict_get config "path")) →
     lookups pooling_config (trace (create w config)) = 0).
Proof.
  intros E1 Eraw. rewrite raw_test_run, outcome_mk in Eraw.
  injection Eraw as Eraw.
  rewrite create_lookups_pooling, E1, Eraw. simpl.
  rewrite <- needs_method_iff.
  destruct (needs_method _ _ _); split; congruence.
Qed.

Lemma method_lookup_iff_witness :
  lookups pooling_config
    (trace (create (remote_world None None) {[ "path" := PStr "org/model" ]})) = 1
  ∧ lookups pooling_config
      (trace (create (remote_world None None)
                {[ "path" := PStr "org/model"; "method" := PStr "meanpooling" ]})) = 0.
Proof.
  split.
  - apply (method_lookup_iff (remote_world None None)
             {[ "path" := PStr "org/model" ]} PNone);
      [vm_compute; reflexivity ..|].
    split; [by left|]. exists "org/model". split; vm_compute; reflexivity.
  - apply (method_lookup_iff (remote_world None None)
             {[ "path" := PStr "org/model"; "method" := PStr "meanpooling" ]} PNone);
      [vm_compute; reflexivity ..|].
    intros [[H|[_ H]] _]; [vm_compute in H; discriminate H|].
    apply H. vm_compute. reflexivity.
Defined.

(** The arguments handed to the strategy: the pass-through values of the
    configuration and the [maxlength] that step 1 gave. *)
Lemma create_args w config st :
  outcome (create w config) = Ok st →
  outcome (derive_maxlength w (dict_get config "path") (dict_get config "maxlength"))
    = Ok (arg_maxlength (strategy_args st))
  ∧ strategy_args st = config_args config (arg_maxlength (strategy_args st)).
Proof.
  rewrite create_run. cbn zeta.
  destruct (outcome (derive_maxlength _ _ _)) as [ml|e]; [|done].
  destruct (raw_branch _ _ _).
  { by intros [= <-]. }
  destruct (needs_method _ _ _); rewrite outcome_mk.
  - destruct (outcome (method _ _)) as [r|e]; [|done].
    intros [= <-]. unfold pick. by destruct (py_eq_str r _).
  - intros [= <-]. unfold pick. by destruct (py_eq_str _ _).
Qed.

(** C6: the tokenizer configuration is looked up if and only if the
    configured [maxlength] is the boolean [True]; any other value is
    what step 1 gives, without a lookup, and what the constructed
    strategy receives. *)
Theorem maxlength_lookup_iff w config :
  (0 < lookups sentence_bert_config (trace (create w config))
     ↔ dict_get config "maxlength" = PBool true)
  ∧ (dict_get config "maxlength" ≠ PBool true →
     derive_maxlength w (dict_get config "path") (dict_get config "maxlength")
       = ([], Ok (dict_get config "maxlength"))
     ∧ ∀ st, outcome (create w config) = Ok st →
         arg_maxlength (strategy_args st) = dict_get config "maxlength").
Proof.
  split.
  - rewrite create_lookups_tokenizer, <- is_bool_true_iff.
    destruct (is_bool_true _); split; (done || lia).
  - intros H. pose proof (derive_maxlength_skip w (dict_get config "path") _ H) as E.
    split; [done|]. intros st [E1 _]%create_args.
    rewrite E, outcome_mk in E1. by injection E1.
Qed.

Lemma maxlength_lookup_iff_witness :
  outcome (create (remote_world None None)
             {[ "path" := PStr "org/model"; "maxlength" := PInt 256 ]})
  = Ok (MeanPooling
          (Build_PoolingArgs (PStr "org/model") PNone PNone (PInt 256) PNone))
  ∧ PInt 256
    = dict_get {[ "path" := PStr "org/model"; "maxlength" := PInt 256 ]} "maxlength".
Proof.
  assert (outcome (create (remote_world None None)
             {[ "path" := PStr "org/model"; "maxlength" := PInt 256 ]})
  = Ok (MeanPooling
          (Build_PoolingArgs (PStr "org/model") PNone PNone (PInt 256) PNone)))
    as Hst.
  { vm_compute. reflexivity. }
  split; [exact Hst|].
  destruct (maxlength_lookup_iff (remote_world None None)
    {[ "path" := PStr "org/model"; "maxlength" := PInt 256 ]}) as [_ H].
  destruct H as [_ H]; [vm_compute; discriminate|].
  exact (H _ Hst).
Defined.

(** ** Local files and opaque paths *)

Lemma pick_iff m args :
  (pick m args = ClsPooling args ↔ m = PStr "clspooling")
  ∧ (pick m args = MeanPooling args ↔ m ≠ PStr "clspooling").
Proof.
  unfold pick. rewrite <- (py_eq_str_iff m "clspooling").
  destruct (py_eq_str m "clspooling"); split; split; done.
Qed.

(** C3, the counterexample: the path names an existing local file and
    [maxlength] is [True]; [create] asks the hub for the tokenizer
    configuration of that path before it tests the file. *)
Lemma local_file_tokenizer_lookup :
  create (sample_world ["model.onnx"] [] ∅)
         {[ "path" := PStr "model.onnx"; "maxlength" := PBool true ]}
  = ([Download (PStr "model.onnx") "sentence_bert_config.json"; IsFile "model.onnx"],
     Ok (Pooling (Build_PoolingArgs (PStr "model.onnx") PNone PNone PNone PNone))).
Proof. vm_compute. reflexivity. Qed.

(** C3, amended: when the path is a string naming an existing local file,
    [create] never looks up the pooling configuration, and its only
    download is the tokenizer configuration of step 1, requested exactly
    when [maxlength] is [True]; with any other [maxlength] it makes no
    remote lookup and returns the raw [Pooling], whatever the method;
    with [True] it returns the raw [Pooling] whenever step 1 returns. *)
Theorem local_file_raw w config p :
  dict_get config "path" = PStr p →
  os_path_isfile w p = true →
  lookups pooling_config (trace (create w config)) = 0
  ∧ remote_lookups (trace (create w config))
    = (if is_bool_true (dict_get config "maxlength")
       then [Download (PStr p) sentence_bert_config] else [])
  ∧ (dict_get config "maxlength" ≠ PBool true →
     create w config
     = ([IsFile p], Ok (Pooling (config_args config (dict_get config "maxlength")))))
  ∧ (∀ ml,
       outcome (derive_maxlength w (PStr p) (dict_get config "maxlength")) = Ok ml →
       outcome (create w config) = Ok (Pooling (config_args config ml))).
Proof.
  intros Hp Hf.
  assert (raw_branch w (PStr p) (dict_get config "method") = true) as Hraw.
  { simpl. by rewrite Hf. }
  split; [|split; [|split]].
  - rewrite create_lookups_pooling, Hp, Hraw. simpl. by rewrite andb_false_r.
  - rewrite create_remote, Hp, Hraw. simpl.
    by rewrite andb_false_r, app_nil_r.
  - intros H. rewrite create_run, Hp, (derive_maxlength_skip _ _ _ H).
    by rewrite outcome_mk, Hraw.
  - intros ml E1. rewrite create_run, Hp, E1. cbn zeta. by rewrite Hraw.
Qed.

Lemma local_file_raw_witness :
  create (sample_world ["model.onnx"] [] ∅) {[ "path" := PStr "model.onnx" ]}
  = ([IsFile "model.onnx"],
     Ok (Pooling (config_args {[ "path" := PStr "model.onnx" ]}
                    (dict_get {[ "path" := PStr "model.onnx" ]} "maxlength")))).
Proof.
  apply (local_file_raw (sample_world ["model.onnx"] [] ∅)
           {[ "path" := PStr "model.onnx" ]} "model.onnx");
    [vm_compute; reflexivity | vm_compute; reflexivity | vm_compute; discriminate].
Defined.

(** C10, the counterexample: the path is unset, the method is not the raw
    request and [maxlength] is [True]; [create] calls the hub with that
    path, and the rejection of the identifier ends the call: no strategy
    is returned. *)
Lemma opaque_path_tokenizer_lookup :
  create (sample_world [] [] ∅)
         {[ "method" := PStr "clspooling"; "maxlength" := PBool true ]}
  = ([Download PNone "sentence_bert_config.json"],
     Raise (OtherError "HFValidationError")).
Proof. vm_compute. reflexivity. Qed.

(** C10, amended: when the path is neither a string nor bytes and the
    method is not ["pooling"], [create] makes no file system test and
    never looks up the pooling configuration; its only download is the
    tokenizer configuration of step 1, requested exactly when
    [maxlength] is [True]; with any other [maxlength] it logs nothing
    and returns [ClsPooling] if the method equals ["clspooling"] and
    [MeanPooling] otherwise; with [True] it does so whenever step 1
    returns. *)
Theorem opaque_path_no_lookup w config :
  isinstance_str (dict_get config "path") = false →
  isinstance_bytes (dict_get config "path") = false →
  dict_get config "method" ≠ PStr "pooling" →
  fs_checks (trace (create w config)) = []
  ∧ lookups pooling_config (trace (create w config)) = 0
  ∧ remote_lookups (trace (create w config))
    = (if is_bool_true (dict_get config "maxlength")
       then [Download (dict_get config "path") sentence_bert_config] else [])
  ∧ (dict_get config "maxlength" ≠ PBool true →
     create w config
     = ([], Ok (pick (dict_get config "method")
                  (config_args config (dict_get config "maxlength")))))
  ∧ (∀ ml,
       outcome (derive_maxlength w (dict_get config "path")
                  (dict_get config "maxlength")) = Ok ml →
       outcome (create w config)
       = Ok (pick (dict_get config "method") (config_args config ml)))
  ∧ (∀ args,
       (pick (dict_get config "method") args = ClsPooling args
          ↔ dict_get config "method" = PStr "clspooling")
       ∧ (pick (dict_get config "method") args = MeanPooling args
          ↔ dict_get config "method" ≠ PStr "clspooling")).
Proof.
  intros Hs Hb Hm.
  set (path := dict_get config "path") in *.
  set (m := dict_get config "method") in *.
  assert (raw_branch w path m = false) as Hraw.
  { apply not_true_iff_false. intros H. apply Hm, py_eq_str_iff.
    by destruct path. }
  assert (needs_method w path m = false) as Hneed.
  { unfold needs_method. by destruct path; rewrite ?andb_false_r. }
  assert (raw_checks path = []) as Hrc by by destruct path.
  assert (derive_checks path m = []) as Hdc.
  { unfold derive_checks. destruct (recognized m); [done|]. by destruct path. }
  assert (∀ ml, outcome (derive_maxlength w path (dict_get config "maxlength")) = Ok ml →
       create w config
       = (trace (derive_maxlength w path (dict_get config "maxlength")),
          Ok (pick m (config_args config ml)))) as Hrun.
  { intros ml E1. rewrite create_run. fold path m. rewrite E1. cbn zeta.
    by rewrite Hraw, Hneed, Hrc, Hdc, !app_nil_r. }
  split; [|split; [|split; [|split; [|split]]]].
  - rewrite create_run. fold path m.
    assert (fs_checks (trace (derive_maxlength w path (dict_get config "maxlength")))
            = []) as H1.
    { rewrite derive_maxlength_trace. destruct (is_bool_true _); [|done].
      apply load_fs. }
    destruct (outcome (derive_maxlength _ _ _)); cbn zeta.
    + by rewrite Hraw, Hneed, Hrc, Hdc, !app_nil_r, trace_mk.
    + by rewrite trace_mk.
  - rewrite create_lookups_pooling. fold path m. rewrite Hneed.
    by rewrite andb_false_r.
  - rewrite create_remote. fold path m. rewrite Hneed.
    by rewrite andb_false_r, app_nil_r.
  - intros H. rewrite (Hrun (dict_get config "maxlength"));
      by rewrite (derive_maxlength_skip _ _ _ H).
  - intros ml E1. by rewrite (Hrun ml E1).
  - intros args. apply pick_iff.
Qed.

Lemma opaque_path_no_lookup_witness :
  create (sample_world [] [] ∅)
         {[ "path" := PObject 7; "method" := PStr "clspooling" ]}
  = ([], Ok (pick (dict_get {[ "path" := PObject 7; "method" := PStr "clspooling" ]}
                     "method")
               (config_args {[ "path" := PObject 7; "method" := PStr "clspooling" ]}
                  (dict_get {[ "path" := PObject 7; "method" := PStr "clspooling" ]}
                     "maxlength")))).
Proof.
  apply (opaque_path_no_lookup (sample_world [] [] ∅)
           {[ "path" := PObject 7; "method" := PStr "clspooling" ]});
    [vm_compute; reflexivity | vm_compute; reflexivity
    | vm_compute; discriminate | vm_compute; discriminate].
Defined.

(** ** Totality, the resolved maxlength and determinism *)

(** C7, the counterexample: a well-formed configuration naming a remote
    model whose pooling configuration is present but empty; every lookup
    succeeds, and [create] ends with [KeyError]. *)
Lemma create_raises_on_incomplete_artifact :
  create (remote_world (Some (PDict ∅)) None) {[ "path" := PStr "org/model" ]}
  = ([IsFile "org/model"; Exists "org/model";
      Download (PStr "org/model") "1_Pooling/config.json";
      Open "org/model/1_Pooling/config.json"],
     Raise (KeyError "pooling_mode_cls_token")).
Proof. vm_compute. reflexivity. Qed.

(** C7, amended: [create] returns a strategy whenever each configuration
    it looks up is absent or complete: the tokenizer configuration,
    looked up when [maxlength] is [True], is not found or is a JSON
    object, and the pooling configuration, looked up when the method is
    derived, is not found or is a JSON object with both flags.  Where
    the artifact is not found the defaults apply: an unset [maxlength],
    the mean strategy. *)
Theorem create_returns w config :
  (dict_get config "maxlength" = PBool true →
   tokenizer_artifact_ok w (dict_get config "path") = true) →
  (raw_branch w (dict_get config "path") (dict_get config "method") = false →
   needs_method w (dict_get config "path") (dict_get config "method") = true →
   pooling_artifact_ok w (dict_get config "path") = true) →
  ∃ st, outcome (create w config) = Ok st
    ∧ (dict_get config "maxlength" = PBool true →
       outcome (load w (dict_get config "path") sentence_bert_config)
         = Raise EntryNotFoundError →
       arg_maxlength (strategy_args st) = PNone)
    ∧ (raw_branch w (dict_get config "path") (dict_get config "method") = false →
       needs_method w (dict_get config "path") (dict_get config "method") = true →
       outcome (load w (dict_get config "path") pooling_config)
         = Raise EntryNotFoundError →
       strategy_variant st = Mean).
Proof.
  set (path := dict_get config "path").
  set (m := dict_get config "method").
  set (cfg_ml := dict_get config "maxlength").
  intros Htok Hpool.
  assert (∃ ml, outcome (derive_maxlength w path cfg_ml) = Ok ml
    ∧ (cfg_ml = PBool true →
       outcome (load w path sentence_bert_config) = Raise EntryNotFoundError →
       ml = PNone)) as (ml & E1 & Hml).
  { unfold derive_maxlength. destruct (is_bool_true cfg_ml) eqn:Eb.
    - apply is_bool_true_iff in Eb. specialize (Htok Eb).
      unfold tokenizer_artifact_ok in Htok. rewrite maxlength_outcome.
      destruct (outcome (load w path sentence_bert_config)) as [c|e].
      + destruct c; try done. eexists. split; [done|]. by intros _ [=].
      + destruct e; try done. by exists PNone.
    - exists cfg_ml. split; [done|]. intros ->. done. }
  rewrite create_run. fold path m cfg_ml. rewrite E1. cbn zeta.
  destruct (raw_branch w path m) eqn:Eraw.
  { eexists. split; [done|]. split; [|done]. intros H1 H2. simpl. by apply Hml. }
  destruct (needs_method w path m) eqn:Eneed.
  - specialize (Hpool eq_refl eq_refl). unfold pooling_artifact_ok in Hpool.
    rewrite outcome_mk, method_outcome.
    destruct (outcome (load w path pooling_config)) as [c|e].
    + destruct c; try done. simpl.
      destruct (d !! "pooling_mode_cls_token") as [cls|]; [|done].
      destruct (d !! "pooling_mode_mean_tokens") as [mean|]; [|done].
      destruct (truthy cls); [destruct (truthy mean)|];
        (eexists; split; [done|]; split; [|done]);
        intros H1 H2; unfold pick; simpl; by apply Hml.
    + destruct e; try done.
      eexists. split; [done|]. split; [|done].
      intros H1 H2. unfold pick. simpl. by apply Hml.
  - eexists. split; [done|]. split; [|done].
    intros H1 H2. unfold pick. destruct (py_eq_str m _); simpl; by apply Hml.
Qed.

Lemma create_returns_witness :
  ∃ st,
    outcome (create (remote_world None None)
               {[ "path" := PStr "org/model"; "maxlength" := PBool true ]}) = Ok st
    ∧ arg_maxlength (strategy_args st) = PNone
    ∧ strategy_variant st = Mean.
Proof.
  destruct (create_returns (remote_world None None)
              {[ "path" := PStr "org/model"; "maxlength" := PBool true ]})
    as (st & Hst & Hml & Hv).
  - intros _. vm_compute. reflexivity.
  - intros _ _. vm_compute. reflexivity.
  - exists st. split; [exact Hst|]. split.
    + apply Hml; vm_compute; reflexivity.
    + apply Hv; vm_compute; reflexivity.
Defined.

(** C8, the counterexample: a configured [maxlength] of [False] reaches
    the strategy as [False], and a tokenizer configuration with
    [max_seq_length] 0 reaches it as 0; neither is unset or a positive
    integer. *)
Lemma maxlength_not_unset_or_positive :
  outcome (create (remote_world None None)
             {[ "path" := PStr "org/model"; "maxlength" := PBool false ]})
  = Ok (MeanPooling
          (Build_PoolingArgs (PStr "org/model") PNone PNone (PBool false) PNone))
  ∧ unset_or_positive (PBool false) = false
  ∧ outcome (create
      (remote_world None (Some (PDict {[ "max_seq_length" := PInt 0 ]})))
      {[ "path" := PStr "org/model"; "maxlength" := PBool true ]})
    = Ok (MeanPooling
            (Build_PoolingArgs (PStr "org/model") PNone PNone (PInt 0) PNone))
  ∧ unset_or_positive (PInt 0) = false.
Proof. vm_compute. repeat split; reflexivity. Qed.

(** C8, amended: the tokenizer configuration is looked up at most once
    per call; the [maxlength] handed to the strategy is unset or a
    positive integer exactly when its source is: a configured value that
    is unset or a positive integer, or [True] together with a tokenizer
    configuration that is absent or whose [max_seq_length] is absent,
    null or a positive integer. *)
Theorem maxlength_resolved_once w config :
  lookups sentence_bert_config (trace (create w config)) ≤ 1
  ∧ ∀ st, outcome (create w config) = Ok st →
      unset_or_positive (arg_maxlength (strategy_args st))
      = maxlength_source_ok w (dict_get config "path") (dict_get config "maxlength").
Proof.
  split.
  - rewrite create_lookups_tokenizer. destruct (is_bool_true _); lia.
  - intros st [E1 _]%create_args. revert E1.
    generalize (arg_maxlength (strategy_args st)) as ml. intros ml.
    unfold derive_maxlength, maxlength_source_ok.
    destruct (is_bool_true _).
    + rewrite maxlength_outcome.
      destruct (outcome (load _ _ _)) as [c|e].
      * destruct c; simpl; try done. by intros [= <-].
      * destruct e; try done. by intros [= <-].
    + by intros [= <-].
Qed.

Lemma maxlength_resolved_once_witness :
  outcome (create
    (remote_world None (Some (PDict {[ "max_seq_length" := PInt 128 ]})))
    {[ "path" := PStr "org/model"; "maxlength" := PBool true ]})
  = Ok (MeanPooling
          (Build_PoolingArgs (PStr "org/model") PNone PNone (PInt 128) PNone))
  ∧ unset_or_positive (PInt 128)
    = maxlength_source_ok
        (remote_world None (Some (PDict {[ "max_seq_length" := PInt 128 ]})))
        (dict_get {[ "path" := PStr "org/model"; "maxlength" := PBool true ]} "path")
        (dict_get {[ "path" := PStr "org/model"; "maxlength" := PBool true ]} "maxlength").
Proof.
  assert (outcome (create
    (remote_world None (Some (PDict {[ "max_seq_length" := PInt 128 ]})))
    {[ "path" := PStr "org/model"; "maxlength" := PBool true ]})
  = Ok (MeanPooling
          (Build_PoolingArgs (PStr "org/model") PNone PNone (PInt 128) PNone)))
    as Hst.
  { vm_compute. reflexivity. }
  split; [exact Hst|].
  destruct (maxlength_resolved_once
    (remote_world None (Some (PDict {[ "max_seq_length" := PInt 128 ]})))
    {[ "path" := PStr "org/model"; "maxlength" := PBool true ]}) as [_ H].
  exact (H _ Hst).
Defined.

(** C9, the counterexample: one configuration, one hub, and a local
    directory named like the model in the second world only; the first
    call derives the method and builds [ClsPooling], the second skips
    the lookup and builds [MeanPooling]. *)
Lemma same_remote_different_strategy :
  same_remote
    (sample_world [] [] (hub_of (Some (flags true false)) None))
    (sample_world [] ["org/model"] (hub_of (Some (flags true false)) None))
    (PStr "org/model")
  ∧ outcome (create (sample_world [] [] (hub_of (Some (flags true false)) None))
               {[ "path" := PStr "org/model" ]})
    = Ok (ClsPooling (Build_PoolingArgs (PStr "org/model") PNone PNone PNone PNone))
  ∧ outcome (create
               (sample_world [] ["org/model"] (hub_of (Some (flags true false)) None))
               {[ "path" := PStr "org/model" ]})
    = Ok (MeanPooling (Build_PoolingArgs (PStr "org/model") PNone PNone PNone PNone)).
Proof. vm_compute. repeat split; reflexivity. Qed.

(** C9, amended: two calls with the same configuration, in worlds that
    answer alike the configuration lookups and the local file system
    tests for the path, end alike: the same exception, or strategies of
    the same variant with the same arguments. *)
Theorem create_deterministic w1 w2 config :
  same_answers w1 w2 (dict_get config "path") →
  outcome (create w1 config) = outcome (create w2 config).
Proof.
  set (path := dict_get config "path").
  set (m := dict_get config "method").
  intros (Hfs & Htok & Hpool).
  assert (raw_branch w1 path m = raw_branch w2 path m) as Hraw.
  { destruct path; try done. simpl. by destruct (Hfs s eq_refl) as [-> _]. }
  assert (needs_method w1 path m = needs_method w2 path m) as Hneed.
  { unfold needs_method. f_equal. destruct path; try done. simpl.
    by destruct (Hfs s eq_refl) as [_ ->]. }
  assert (outcome (derive_maxlength w1 path (dict_get config "maxlength"))
          = outcome (derive_maxlength w2 path (dict_get config "maxlength"))) as H1.
  { unfold derive_maxlength. destruct (is_bool_true _); [|done].
    by rewrite !maxlength_outcome, Htok. }
  assert (outcome (method w1 path) = outcome (method w2 path)) as H2.
  { by rewrite !method_outcome, Hpool. }
  rewrite !create_run. fold path m. rewrite <- H1, <- Hraw, <- Hneed, <- H2.
  destruct (outcome (derive_maxlength w1 path _)); cbn zeta; [|done].
  destruct (raw_branch w1 path m); [done|].
  by destruct (needs_method w1 path m).
Qed.

Lemma create_deterministic_witness :
  outcome (create (sample_world [] [] (hub_of (Some (flags true false)) None))
             {[ "path" := PStr "org/model" ]})
  = outcome (create (sample_world ["weights.bin"] [] (hub_of (Some (flags true false)) None))
               {[ "path" := PStr "org/model" ]}).
Proof.
  apply create_deterministic. split.
  - intros p Hp. vm_compute in Hp. injection Hp as <-.
    split; vm_compute; reflexivity.
  - split; vm_compute; reflexivity.
Defined.

(** ** Further properties of the resolvers *)

(** X1: each resolver makes exactly one hub download, of its own file
    under the given path, and opens only the file that download gave;
    the subscripts, the [get] and the handler add no call. *)
Theorem resolver_io w path :
  trace (method w path)
  = Download path "1_Pooling/config.json" ::
      match hf_hub_download w path "1_Pooling/config.json" with
      | Ok local => [Open local]
      | Raise _ => []
      end
  ∧ trace (maxlength w path)
    = Download path "sentence_bert_config.json" ::
        match hf_hub_download w path "sentence_bert_config.json" with
        | Ok local => [Open local]
        | Raise _ => []
        end.
Proof.
  split.
  - rewrite method_trace. apply load_trace.
  - rewrite maxlength_trace. apply load_trace.
Qed.

(** X2: an exception of [load] other than [EntryNotFoundError] is not
    absorbed: both resolvers end with that same exception. *)
Theorem resolver_propagates_other_errors w path e :
  e ≠ EntryNotFoundError →
  (outcome (load w path pooling_config) = Raise e →
   outcome (method w path) = Raise e)
  ∧ (outcome (load w path sentence_bert_config) = Raise e →
     outcome (maxlength w path) = Raise e).
Proof.
  intros He. split; intros H.
  - rewrite method_outcome, H. by destruct e.
  - rewrite maxlength_outcome, H. by destruct e.
Qed.

Lemma resolver_propagates_other_errors_witness :
  outcome (method (remote_world None None) PNone)
    = Raise (OtherError "HFValidationError")
  ∧ outcome (maxlength (remote_world None None) PNone)
    = Raise (OtherError "HFValidationError").
Proof.
  destruct (resolver_propagates_other_errors (remote_world None None) PNone
              (OtherError "HFValidationError")) as [H1 H2]; [discriminate|].
  split; [apply H1|apply H2]; vm_compute; reflexivity.
Defined.

(** X3: whatever the hub holds, a method the resolver returns is one of
    the two recognized values. *)
Theorem method_range w path r :
  outcome (method w path) = Ok r →
  r = PStr "clspooling" ∨ r = PStr "meanpooling".
Proof.
  rewrite method_outcome.
  destruct (outcome (load w path pooling_config)) as [c|e].
  - destruct (getitem c "pooling_mode_cls_token") as [cls|]; [|done].
    destruct (truthy cls).
    + destruct (getitem c "pooling_mode_mean_tokens") as [mean|]; [|done].
      destruct (truthy mean); intros [= <-]; auto.
    + intros [= <-]; auto.
  - destruct e; try done. intros [= <-]; auto.
Qed.

Lemma method_range_witness :
  PStr "clspooling" = PStr "clspooling" ∨ PStr "clspooling" = PStr "meanpooling".
Proof.
  apply (method_range (remote_world (Some (flags true false)) None)
           (PStr "org/model")).
  vm_compute. reflexivity.
Defined.

(** X4: the two flags are tested for truthiness, not for being booleans:
    with both keys present, whatever JSON values they hold, the result
    is ["clspooling"] when the CLS value is truthy and the mean value is
    falsy, and ["meanpooling"] otherwise. *)
Theorem method_truthiness w path d (c m : pyval) :
  outcome (load w path pooling_config) = Ok (PDict d) →
  d !! "pooling_mode_cls_token" = Some c →
  d !! "pooling_mode_mean_tokens" = Some m →
  outcome (method w path)
  = Ok (PStr (if truthy c && negb (truthy m) then "clspooling" else "meanpooling")).
Proof.
  intros H Hc Hm. rewrite method_outcome, H. simpl. rewrite Hc.
  destruct (truthy c); [|done]. rewrite Hm. by destruct (truthy m).
Qed.

Lemma method_truthiness_witness :
  outcome (method
    (remote_world
       (Some (PDict {[ "pooling_mode_cls_token" := PInt 1;
                       "pooling_mode_mean_tokens" := PStr "false" ]})) None)
    (PStr "org/model"))
  = Ok (PStr "meanpooling").
Proof.
  apply (method_truthiness
    (remote_world
       (Some (PDict {[ "pooling_mode_cls_token" := PInt 1;
                       "pooling_mode_mean_tokens" := PStr "false" ]})) None)
    (PStr "org/model")
    {[ "pooling_mode_cls_token" := PInt 1;
       "pooling_mode_mean_tokens" := PStr "false" ]}
    (PInt 1) (PStr "false"));
    vm_compute; reflexivity.
Defined.

(** X5: an artifact that parses to something other than a JSON object (a
    list, a string, a number, null) is an error in both resolvers:
    [TypeError] from the subscript in [method], [AttributeError] from
    [get] in [maxlength]. *)
Theorem non_object_artifact_raises w path j :
  (∀ d, j ≠ PDict d) →
  (outcome (load w path pooling_config) = Ok j →
   outcome (method w path) = Raise TypeError)
  ∧ (outcome (load w path sentence_bert_config) = Ok j →
     outcome (maxlength w path) = Raise AttributeError).
Proof.
  intros Hj. split; intros H.
  - rewrite method_outcome, H. destruct j; try done. by destruct (Hj d).
  - rewrite maxlength_outcome, H. destruct j; try done. by destruct (Hj d).
Qed.

Lemma non_object_artifact_raises_witness :
  outcome (method (remote_world (Some (PList [])) None) (PStr "org/model"))
    = Raise TypeError
  ∧ outcome (maxlength (remote_world None (Some (PList []))) (PStr "org/model"))
    = Raise AttributeError.
Proof.
  split.
  - apply (non_object_artifact_raises (remote_world (Some (PList [])) None)
             (PStr "org/model") (PList [])); [discriminate|].
    vm_compute. reflexivity.
  - apply (non_object_artifact_raises (remote_world None (Some (PList [])))
             (PStr "org/model") (PList [])); [discriminate|].
    vm_compute. reflexivity.
Defined.

(** ** Further properties of [create] *)

Lemma dict_get_insert_ne (c : gmap string pyval) k k' v :
  k ≠ k' → dict_get (<[k:=v]> c) k' = dict_get c k'.
Proof. intros H. unfold dict_get. by rewrite lookup_insert_ne. Qed.

Lemma dict_get_delete_ne (c : gmap string pyval) k k' :
  k ≠ k' → dict_get (delete k c) k' = dict_get c k'.
Proof. intros H. unfold dict_get. by rewrite lookup_delete_ne. Qed.

Lemma dict_get_insert_none (c : gmap string pyval) k k' :
  dict_get (<[k:=PNone]> c) k' = dict_get (delete k c) k'.
Proof.
  unfold dict_get. destruct (decide (k = k')) as [->|H].
  - by rewrite lookup_insert_eq, lookup_delete_eq.
  - by rewrite lookup_insert_ne, lookup_delete_ne.
Qed.

Lemma create_ext w (c1 c2 : gmap string pyval) :
  (∀ k, mem_string k config_keys = true → dict_get c1 k = dict_get c2 k) →
  create w c1 = create w c2.
Proof.
  intros H. unfold create.
  rewrite (H "method" eq_refl), (H "path" eq_refl), (H "device" eq_refl),
    (H "tokenizer" eq_refl), (H "maxlength" eq_refl), (H "modelargs" eq_refl).
  reflexivity.
Qed.

Lemma mem_string_ne k k' l :
  mem_string k l = false → mem_string k' l = true → k ≠ k'.
Proof. intros H1 H2 ->. congruence. Qed.

(** X6: every strategy that [create] returns carries the configured
    [path], [device], [tokenizer] and [modelargs] unchanged, [None]
    standing for a key the configuration does not have. *)
Theorem create_passes_arguments w config st :
  outcome (create w config) = Ok st →
  arg_path (strategy_args st) = default PNone (config !! "path")
  ∧ arg_device (strategy_args st) = default PNone (config !! "device")
  ∧ arg_tokenizer (strategy_args st) = default PNone (config !! "tokenizer")
  ∧ arg_modelargs (strategy_args st) = default PNone (config !! "modelargs").
Proof.
  intros [_ H]%create_args. by rewrite H.
Qed.

Lemma create_passes_arguments_witness :
  arg_device (strategy_args
    (Pooling (Build_PoolingArgs (PStr "model.onnx") (PStr "cpu") PNone PNone PNone)))
  = default PNone
      (({[ "path" := PStr "model.onnx"; "device" := PStr "cpu" ]}
          : gmap string pyval) !! "device").
Proof.
  apply (create_passes_arguments (sample_world ["model.onnx"] [] ∅)
           {[ "path" := PStr "model.onnx"; "device" := PStr "cpu" ]}).
  vm_compute. reflexivity.
Defined.

(** X7: [create] reads the six keys of line 35 and nothing else: setting
    any other key of the configuration changes neither what it logs nor
    what it gives. *)
Theorem create_ignores_other_keys w (config : gmap string pyval) k v :
  mem_string k config_keys = false →
  create w (<[k:=v]> config) = create w config.
Proof.
  intros Hk. apply create_ext. intros k' Hk'.
  apply dict_get_insert_ne. by eapply mem_string_ne.
Qed.

Lemma create_ignores_other_keys_witness :
  create (remote_world None None)
    (<["pooling":=PStr "clspooling"]> {[ "path" := PStr "org/model" ]})
  = create (remote_world None None) {[ "path" := PStr "org/model" ]}.
Proof.
  apply create_ignores_other_keys. vm_compute. reflexivity.
Defined.

(** X8: a key set to [None] is the same as a key that is absent, for
    every key. *)
Theorem create_none_is_absent w (config : gmap string pyval) k :
  create w (<[k:=PNone]> config) = create w (delete k config).
Proof.
  apply create_ext. intros k' _. apply dict_get_insert_none.
Qed.

(** X9: a configured method that is neither ["pooling"] nor one of the
    two recognized values is treated exactly as an unset method: same
    calls, same result. *)
Theorem unrecognized_method_as_unset w (config : gmap string pyval) :
  recognized (dict_get config "method") = false →
  py_eq_str (dict_get config "method") "pooling" = false →
  create w config = create w (delete "method" config).
Proof.
  intros Hr Hp.
  assert (py_eq_str (dict_get config "method") "clspooling" = false) as Hc.
  { unfold recognized in Hr. by apply orb_false_iff in Hr as [? _]. }
  rewrite !create_run.
  rewrite !(dict_get_delete_ne config "method") by done.
  assert (dict_get (delete "method" config) "method" = PNone) as ->.
  { unfold dict_get. by rewrite lookup_delete_eq. }
  set (path := dict_get config "path").
  set (m := dict_get config "method") in *.
  assert (raw_branch w path m = raw_branch w path PNone) as ->.
  { unfold raw_branch. by rewrite Hp. }
  assert (needs_method w path m = needs_method w path PNone) as ->.
  { unfold needs_method. by rewrite Hr. }
  assert (derive_checks path m = derive_checks path PNone) as ->.
  { unfold derive_checks. by rewrite Hr. }
  assert (∀ a, pick m a = pick PNone a) as Hpick.
  { intros a. unfold pick. by rewrite Hc. }
  destruct (outcome (derive_maxlength w path _)) as [ml|e]; [|done].
  cbn zeta. unfold config_args.
  rewrite !(dict_get_delete_ne config "method") by done.
  by rewrite Hpick.
Qed.

Lemma unrecognized_method_as_unset_witness :
  create (remote_world (Some (flags true false)) None)
    {[ "path" := PStr "org/model"; "method" := PStr "cls" ]}
  = create (remote_world (Some (flags true false)) None)
      (delete "method"
         ({[ "path" := PStr "org/model"; "method" := PStr "cls" ]}
            : gmap string pyval)).
Proof.
  apply unrecognized_method_as_unset; vm_compute; reflexivity.
Defined.

(** X10: the raw request wins over every path: with the method
    ["pooling"], once step 1 has returned, [create] returns the raw
    [Pooling], never calls [os.path.exists] and never looks up the
    pooling configuration. *)
Theorem raw_request_wins w config ml :
  dict_get config "method" = PStr "pooling" →
  outcome (derive_maxlength w (dict_get config "path") (dict_get config "maxlength"))
    = Ok ml →
  outcome (create w config) = Ok (Pooling (config_args config ml))
  ∧ fs_checks (trace (create w config)) = raw_checks (dict_get config "path")
  ∧ lookups pooling_config (trace (create w config)) = 0.
Proof.
  intros Hm E1.
  assert (raw_branch w (dict_get config "path") (dict_get config "method") = true)
    as Hraw.
  { rewrite Hm. unfold raw_branch. simpl.
    destruct (dict_get config "path"); try done. apply orb_true_r. }
  split; [|split].
  - rewrite create_run, E1. cbn zeta. by rewrite Hraw.
  - rewrite (create_fs w config ml E1), Hraw. apply app_nil_r.
  - rewrite create_lookups_pooling, Hraw. simpl. by rewrite andb_false_r.
Qed.

Lemma raw_request_wins_witness :
  outcome (create (remote_world (Some (flags true false)) None)
             {[ "path" := PStr "org/model"; "method" := PStr "pooling" ]})
  = Ok (Pooling (config_args
          {[ "path" := PStr "org/model"; "method" := PStr "pooling" ]} PNone)).
Proof.
  apply (raw_request_wins (remote_world (Some (flags true false)) None)
           {[ "path" := PStr "org/model"; "method" := PStr "pooling" ]} PNone);
    vm_compute; reflexivity.
Defined.



(** X12: a pinned method is never checked against the world: with a
    recognized method, a string path that is not a local file and a
    [maxlength] other than [True], the only call of [create] is the
    [os.path.isfile] test, and the strategy is the pinned one. *)
Theorem pinned_method_no_lookup w config p :
  recognized (dict_get config "method") = true →
  dict_get config "path" = PStr p →
  os_path_isfile w p = false →
  dict_get config "maxlength" ≠ PBool true →
  create w config
  = ([IsFile p],
     Ok (pick (dict_get config "method")
           (config_args config (dict_get config "maxlength")))).
Proof.
  intros Hr Hp Hf Hml.
  assert (py_eq_str (dict_get config "method") "pooling" = false) as Hpool.
  { unfold recognized in Hr. destruct (dict_get config "method"); try done.
    simpl in *. apply orb_true_iff in Hr as [H|H]; apply String.eqb_eq in H;
      by subst. }
  rewrite create_run, Hp, (derive_maxlength_skip _ _ _ Hml), outcome_mk.
  cbn zeta. unfold raw_branch, needs_method, derive_checks.
  by rewrite Hf, Hpool, Hr.
Qed.

Lemma pinned_method_no_lookup_witness :
  create (remote_world (Some (flags false true)) None)
    {[ "path" := PStr "org/model"; "method" := PStr "clspooling" ]}
  = ([IsFile "org/model"],
     Ok (pick (dict_get {[ "path" := PStr "org/model"; "method" := PStr "clspooling" ]}
                 "method")
           (config_args {[ "path" := PStr "org/model"; "method" := PStr "clspooling" ]}
              (dict_get {[ "path" := PStr "org/model"; "method" := PStr "clspooling" ]}
                 "maxlength")))).
Proof.
  apply (pinned_method_no_lookup (remote_world (Some (flags false true)) None)
           {[ "path" := PStr "org/model"; "method" := PStr "clspooling" ]}
           "org/model");
    [vm_compute; reflexivity ..| vm_compute; discriminate].
Defined.



(** X14: one call downloads at most two files, each at most once, always
    under the configured path: the tokenizer configuration and the
    pooling configuration, and nothing else. *)
Theorem create_downloads w config :
  length (remote_lookups (trace (create w config))) ≤ 2
  ∧ lookups sentence_bert_config (trace (create w config)) ≤ 1
  ∧ lookups pooling_config (trace (create w config)) ≤ 1
  ∧ ∀ e, e ∈ remote_lookups (trace (create w config)) →
      e = Download (default PNone (config !! "path")) "sentence_bert_config.json"
      ∨ e = Download (default PNone (config !! "path")) "1_Pooling/config.json".
Proof.
  split; [|split; [|split]].
  - rewrite create_remote.
    destruct (is_bool_true _); destruct (_ && _ && _); simpl; lia.
  - rewrite create_lookups_tokenizer. destruct (is_bool_true _); lia.
  - rewrite create_lookups_pooling. destruct (_ && _ && _); lia.
  - intros e. rewrite create_remote.
    destruct (is_bool_true _); destruct (_ && _ && _); simpl;
      rewrite ?elem_of_cons, ?elem_of_nil; intuition.
Qed.

(** X15: an exception of [create] is the exception of a resolver it
    called: of the maxlength resolver, called because [maxlength] is
    [True], or of the method resolver.  When it is step 1 that fails,
    the call ends there: the log is that of the resolver, without any
    file system test or pooling lookup. *)
Theorem create_exception_origin w config e :
  outcome (create w config) = Raise e →
  (dict_get config "maxlength" = PBool true
   ∧ outcome (maxlength w (dict_get config "path")) = Raise e
   ∧ trace (create w config) = trace (maxlength w (dict_get config "path")))
  ∨ (needs_method w (dict_get config "path") (dict_get config "method") = true
     ∧ outcome (method w (dict_get config "path")) = Raise e).
Proof.
  rewrite create_run. cbn zeta.
  destruct (outcome (derive_maxlength _ _ _)) as [ml|e1] eqn:E1.
  - destruct (raw_branch _ _ _); [done|].
    destruct (needs_method _ _ _); [|done].
    rewrite outcome_mk.
    destruct (outcome (method _ _)) as [r|e2]; [done|].
    intros [= ->]. by right.
  - rewrite outcome_mk, trace_mk. intros [= ->]. left.
    unfold derive_maxlength in *.
    destruct (is_bool_true _) eqn:Eb; [|done].
    by apply is_bool_true_iff in Eb.
Qed.

Lemma create_exception_origin_witness :
  outcome (maxlength (remote_world None (Some (PInt 512)))
             (dict_get {[ "path" := PStr "org/model"; "maxlength" := PBool true ]}
                "path"))
  = Raise AttributeError.
Proof.
  destruct (create_exception_origin (remote_world None (Some (PInt 512)))
              {[ "path" := PStr "org/model"; "maxlength" := PBool true ]}
              AttributeError) as [(_ & H & _)|[_ H]].
  - vm_compute. reflexivity.
  - exact H.
  - vm_compute in H. discriminate H.
Defined.

(** X16: end to end for a remote model: an unrecognized or unset method
    other than ["pooling"], a string path that is neither a local file
    nor an existing local path, and a pooling configuration with both
    keys; once step 1 has returned, [create] builds [ClsPooling] when the
    CLS value is truthy and the mean value falsy, and [MeanPooling]
    otherwise. *)
Theorem derived_method_decides w config p ml d (c m : pyval) :
  dict_get config "path" = PStr p →
  os_path_isfile w p = false →
  os_path_exists w p = false →
  recognized (dict_get config "method") = false →
  py_eq_str (dict_get config "method") "pooling" = false →
  outcome (derive_maxlength w (PStr p) (dict_get config "maxlength")) = Ok ml →
  outcome (load w (PStr p) pooling_config) = Ok (PDict d) →
  d !! "pooling_mode_cls_token" = Some c →
  d !! "pooling_mode_mean_tokens" = Some m →
  outcome (create w config)
  = Ok (if truthy c && negb (truthy m)
        then ClsPooling (config_args config ml)
        else MeanPooling (config_args config ml)).
Proof.
  intros Hp Hf He Hr Hm E1 Hload Hc Hmean.
  assert (raw_branch w (PStr p) (dict_get config "method") = false) as Hraw.
  { unfold raw_branch. by rewrite Hf, Hm. }
  assert (needs_method w (PStr p) (dict_get config "method") = true) as Hneed.
  { unfold needs_method, nonlocal_string. by rewrite Hr, He. }
  rewrite create_run, Hp, E1. cbn zeta. rewrite Hraw, Hneed.
  rewrite outcome_mk, method_outcome, Hload. simpl. rewrite Hc.
  destruct (truthy c); [|done]. simpl. rewrite Hmean.
  by destruct (truthy m).
Qed.

Lemma derived_method_decides_witness :
  outcome (create (remote_world (Some (flags true false)) None)
             {[ "path" := PStr "org/model" ]})
  = Ok (if truthy (PBool true) && negb (truthy (PBool false))
        then ClsPooling (config_args {[ "path" := PStr "org/model" ]} PNone)
        else MeanPooling (config_args {[ "path" := PStr "org/model" ]} PNone)).
Proof.
  apply (derived_method_decides (remote_world (Some (flags true false)) None)
           {[ "path" := PStr "org/model" ]} "org/model" PNone
           {[ "pooling_mode_cls_token" := PBool true;
              "pooling_mode_mean_tokens" := PBool false ]}
           (PBool true) (PBool false));
    vm_compute; reflexivity.
Defined.

(** X17: with [maxlength] set to [True] and a tokenizer configuration
    that is a JSON object, every strategy [create] returns carries the
    value found under [max_seq_length], whatever it is, and [None] when
    the key is absent. *)
Theorem maxlength_from_artifact w config d st :
  dict_get config "maxlength" = PBool true →
  outcome (load w (dict_get config "path") sentence_bert_config) = Ok (PDict d) →
  outcome (create w config) = Ok st →
  arg_maxlength (strategy_args st) = default PNone (d !! "max_seq_length").
Proof.
  intros Hml Hload [E1 _]%create_args.
  unfold derive_maxlength in E1. rewrite Hml in E1. simpl in E1.
  rewrite maxlength_outcome, Hload in E1. simpl in E1.
  by injection E1 as <-.
Qed.

Lemma maxlength_from_artifact_witness :
  arg_maxlength (strategy_args
    (MeanPooling (Build_PoolingArgs (PStr "org/model") PNone PNone (PInt 128) PNone)))
  = default PNone
      (({[ "max_seq_length" := PInt 128 ]} : gmap string pyval) !! "max_seq_length").
Proof.
  apply (maxlength_from_artifact
    (remote_world None (Some (PDict {[ "max_seq_length" := PInt 128 ]})))
    {[ "path" := PStr "org/model"; "maxlength" := PBool true ]});
    vm_compute; reflexivity.
Defined.

(** X18: when [maxlength] is [True], the download of the tokenizer
    configuration is the first call of [create], before any test of the
    path. *)
Theorem tokenizer_lookup_first w config :
  dict_get config "maxlength" = PBool true →
  ∃ t, trace (create w config)
       = Download (default PNone (config !! "path")) "sentence_bert_config.json" :: t.
Proof.
  intros Hml.
  assert (∃ t, trace (derive_maxlength w (dict_get config "path")
                        (dict_get config "maxlength"))
               = Download (dict_get config "path") sentence_bert_config :: t)
    as [t Ht].
  { rewrite derive_maxlength_trace, Hml. simpl. rewrite load_trace. eauto. }
  rewrite create_run. cbn zeta.
  destruct (outcome (derive_maxlength _ _ _)).
  - destruct (raw_branch _ _ _); [|destruct (needs_method _ _ _)];
      rewrite trace_mk, Ht; simpl; eauto.
  - rewrite trace_mk, Ht. eauto.
Qed.

Lemma tokenizer_lookup_first_witness :
  ∃ t, trace (create (sample_world ["model.onnx"] [] ∅)
                {[ "path" := PStr "model.onnx"; "maxlength" := PBool true ]})
       = Download
           (default PNone
              (({[ "path" := PStr "model.onnx"; "maxlength" := PBool true ]}
                  : gmap string pyval) !! "path"))
           "sentence_bert_config.json" :: t.
Proof.
  apply tokenizer_lookup_first. vm_compute. reflexivity.
Defined.

(** X19: the log of a derivation: for a string path that is neither a
    local file nor an existing local path and a method that is
    unrecognized and not ["pooling"], [create] logs step 1, then the
    [os.path.isfile] test, then the [os.path.exists] test, then the
    calls of the method resolver, in that order and nothing more. *)
Theorem derivation_trace w config p :
  dict_get config "path" = PStr p →
  os_path_isfile w p = false →
  os_path_exists w p = false →
  recognized (dict_get config "method") = false →
  py_eq_str (dict_get config "method") "pooling" = false →
  returns (outcome (derive_maxlength w (PStr p) (dict_get config "maxlength")))
    = true →
  trace (create w config)
  = trace (derive_maxlength w (PStr p) (dict_get config "maxlength"))
    ++ [IsFile p; Exists p] ++ trace (method w (PStr p)).
Proof.
  intros Hp Hf He Hr Hm E1.
  assert (raw_branch w (PStr p) (dict_get config "method") = false) as Hraw.
  { unfold raw_branch. by rewrite Hf, Hm. }
  assert (needs_method w (PStr p) (dict_get config "method") = true) as Hneed.
  { unfold needs_method, nonlocal_string. by rewrite Hr, He. }
  rewrite create_run, Hp. cbn zeta.
  destruct (outcome (derive_maxlength _ _ _)); [|done].
  rewrite Hraw, Hneed, trace_mk. unfold derive_checks. by rewrite Hr.
Qed.

Lemma derivation_trace_witness :
  trace (create (remote_world (Some (flags true false)) None)
           {[ "path" := PStr "org/model" ]})
  = trace (derive_maxlength (remote_world (Some (flags true false)) None)
             (PStr "org/model")
             (dict_get {[ "path" := PStr "org/model" ]} "maxlength"))
    ++ [IsFile "org/model"; Exists "org/model"]
    ++ trace (method (remote_world (Some (flags true false)) None) (PStr "org/model")).
Proof.
  apply (derivation_trace (remote_world (Some (flags true false)) None)
           {[ "path" := PStr "org/model" ]} "org/model");
    vm_compute; reflexivity.
Defined.
